(** * The identity statistic of plotnine ([plotnine/stats/stat_identity.py])

    The class [stat_identity] carries one class attribute, the dictionary
    [DEFAULT_PARAMS], and one class method,

<<
    @classmethod
    def compute_panel(cls, data, scales, **params):
        return data
>>

    Python values are references into a store of objects, and a data frame is
    a mutable object.  What the method promises (same object back, nothing
    touched) only makes sense with that store in view, so the method is
    embedded as a program over an object store: a tree of store operations
    ending in a returned value or a raised exception.

    The base class [stat] and the class decorator [document] are defined in
    other files; [document] fills in the docstring.  The embedding takes the
    class body as it is written. *)

From Stdlib Require Import ZArith.
From stdpp Require Import gmap strings list fin_maps relations.

Open Scope string_scope.

(** ** Values and objects *)

(** Object identity (what Python's [id] and [is] observe). *)
Abbreviation loc := positive.

(** A Python value: an immutable scalar held by value (a float by the 64
    bits of its representation, so that a NaN is a value like any other), or
    a reference to an object of the store. *)
Inductive pyval : Type :=
| VNone
| VBool (b : bool)
| VInt (z : Z)
| VFloat (bits : Z)
| VStr (s : string)
| VRef (l : loc).

(** A data frame: the labels of its rows, and its columns in order, each a
    name and the cells of that column from the first row to the last. *)
Record DataFrame : Type := mkDataFrame {
  df_index : list pyval;
  df_columns : list (string * list pyval)
}.

(** The objects a store holds: data frames, the scales collection of a panel
    (one entry per aesthetic), dictionaries, and classes. *)
Inductive pyobj : Type :=
| ODataFrame (d : DataFrame)
| OScales (s : list (string * list pyval))
| ODict (m : gmap string pyval)
| OClass (name : string).

Abbreviation store := (gmap loc pyobj).

(** Observations on a data frame. *)
Definition df_names (d : DataFrame) : list string :=
  (df_columns d).*1.

Definition df_nrow (d : DataFrame) : nat := length (df_index d).

Definition df_ncol (d : DataFrame) : nat := length (df_columns d).

(** The cell in column number [j], row number [i]. *)
Definition df_cell (d : DataFrame) (j i : nat) : option pyval :=
  match df_columns d !! j with
  | Some (_, cells) => cells !! i
  | None => None
  end.

(** The data frame a value refers to, if it refers to one. *)
Definition deref_df (h : store) (v : pyval) : option DataFrame :=
  match v with
  | VRef l => match h !! l with
              | Some (ODataFrame d) => Some d
              | _ => None
              end
  | _ => None
  end.

(** ** Programs over the store *)

Inductive exn : Type :=
| TypeError (msg : string)
| KeyError (msg : string)
| AttributeError (msg : string).

(** One operation on the store, as it shows in an execution's log. *)
Inductive event : Type :=
| EvLoad (l : loc)
| EvStore (l : loc)
| EvAlloc (l : loc).

(** A program: it returns, raises, or performs one store operation and goes
    on.  [Load l k] reads the object at [l]; [Store l o k] overwrites the
    object at [l] in place; [Alloc o k] creates a new object. *)
Inductive prog (A : Type) : Type :=
| Ret (a : A)
| Raise (e : exn)
| Load (l : loc) (k : option pyobj → prog A)
| Store (l : loc) (o : pyobj) (k : prog A)
| Alloc (o : pyobj) (k : loc → prog A).

Arguments Ret {A} a.
Arguments Raise {A} e.
Arguments Load {A} l k.
Arguments Store {A} l o k.
Arguments Alloc {A} o k.

Fixpoint bind {A B : Type} (p : prog A) (f : A → prog B) : prog B :=
  match p with
  | Ret a => f a
  | Raise e => Raise e
  | Load l k => Load l (λ o, bind (k o) f)
  | Store l o k => Store l o (bind k f)
  | Alloc o k => Alloc o (λ l, bind (k l) f)
  end.

(** Programs form a monad; [x ← p; q] sequences them. *)
#[global] Instance prog_ret : MRet prog := @Ret.
#[global] Instance prog_bind : MBind prog := λ A B f p, bind p f.

(** How a call ends. *)
Inductive outcome (A : Type) : Type :=
| Returned (a : A)
| Raised (e : exn).

Arguments Returned {A} a.
Arguments Raised {A} e.

(** The result of running a program: how it ended, the store it left, and
    the operations it performed, oldest first. *)
Record result (A : Type) : Type := mkResult {
  res_outcome : outcome A;
  res_store : store;
  res_log : list event
}.

Arguments mkResult {A} _ _ _.
Arguments res_outcome {A} _.
Arguments res_store {A} _.
Arguments res_log {A} _.

Definition fresh_loc (h : store) : loc := fresh (dom h).

Definition logged {A : Type} (e : event) (r : result A) : result A :=
  mkResult (res_outcome r) (res_store r) (e :: res_log r).

Fixpoint run {A : Type} (p : prog A) (h : store) : result A :=
  match p with
  | Ret a => mkResult (Returned a) h []
  | Raise e => mkResult (Raised e) h []
  | Load l k => logged (EvLoad l) (run (k (h !! l)) h)
  | Store l o k => logged (EvStore l) (run k (<[l:=o]> h))
  | Alloc o k =>
      let l := fresh_loc h in
      logged (EvAlloc l) (run (k l) (<[l:=o]> h))
  end.

(** The locations an execution read, and those it wrote or created. *)
Definition reads (log : list event) : list loc :=
  omap (λ e, match e with EvLoad l => Some l | _ => None end) log.

Definition writes (log : list event) : list loc :=
  omap (λ e, match e with EvStore l | EvAlloc l => Some l | EvLoad _ => None end) log.

(** Two operations of a caller of the statistic; neither is part of
    [stat_identity.py].  They give the store something to observe: a result
    that is an alias of [data] and one that is a copy behave differently
    under them.

    Store-level effect of a call that changes a data frame in place (an
    item assignment, a method with [inplace=True]): the object at the
    reference is replaced by its updated state, under the same identity. *)
Definition update_df (v : pyval) (f : DataFrame → DataFrame) : prog pyval :=
  match v with
  | VRef l =>
      Load l (λ o,
        match o with
        | Some (ODataFrame d) => Store l (ODataFrame (f d)) (Ret v)
        | _ => Raise (AttributeError "not a data frame")
        end)
  | _ => Raise (AttributeError "not a data frame")
  end.

(** Store-level effect of [copy]: a new object with the same contents. *)
Definition copy_obj (v : pyval) : prog pyval :=
  match v with
  | VRef l =>
      Load l (λ o,
        match o with
        | Some o => Alloc o (λ l', Ret (VRef l'))
        | None => Raise (AttributeError "no such object")
        end)
  | _ => Ret v
  end.

(** ** Interleaved execution

    Several programs run against one store.  A scheduler picks which program
    performs its next store operation; a program that has returned or raised
    has none left. *)

Definition thread_step {A : Type} (t : prog A) (h : store)
  : option (prog A * store) :=
  match t with
  | Ret _ | Raise _ => None
  | Load l k => Some (k (h !! l), h)
  | Store l o k => Some (k, <[l:=o]> h)
  | Alloc o k => Some (k (fresh_loc h), <[fresh_loc h:=o]> h)
  end.

Definition pool_step {A : Type} (c : list (prog A) * store) (i : nat)
  : list (prog A) * store :=
  match c.1 !! i with
  | Some t =>
      match thread_step t c.2 with
      | Some (t', h') => (<[i:=t']> c.1, h')
      | None => c
      end
  | None => c
  end.

(** Run the pool under a schedule: the list of the thread numbers that move,
    in the order they move. *)
Definition interleave {A : Type} (sched : list nat) (c : list (prog A) * store)
  : list (prog A) * store :=
  foldl pool_step c sched.

(** What a thread of the pool has produced so far. *)
Definition thread_outcome {A : Type} (t : prog A) : option (outcome A) :=
  match t with
  | Ret a => Some (Returned a)
  | Raise e => Some (Raised e)
  | _ => None
  end.

(** ** The class [stat_identity] *)

Module stat_identity.

(** [DEFAULT_PARAMS = {'geom': 'point', 'position': 'identity'}] *)
Definition DEFAULT_PARAMS : gmap string pyval :=
  <["position" := VStr "identity"]> (<["geom" := VStr "point"]> ∅).

(** [def compute_panel(cls, data, scales, **params): return data]

    [cls] is the class the method is called on.  [params] is the dictionary
    of the keyword arguments of the call; it is made for the call and known
    to nobody else, so it is passed as a value. *)
Definition compute_panel (cls data scales : pyval) (params : gmap string pyval)
  : prog pyval :=
  Ret data.

End stat_identity.

(** One invocation of the statistic by the pipeline: the arguments of a call
    of [compute_panel] for one panel. *)
Record call : Type := mkCall {
  call_cls : pyval;
  call_data : pyval;
  call_scales : pyval;
  call_params : gmap string pyval
}.

Definition invoke (c : call) : prog pyval :=
  stat_identity.compute_panel
    (call_cls c) (call_data c) (call_scales c) (call_params c).

(** The pool of the invocations for a list of panels. *)
Definition spawn (calls : list call) : list (prog pyval) := invoke <$> calls.

(** ** A sample panel

    A store with the data frames of two panels at locations 1 and 3, the
    scales at location 2 and the class at location 4; and two in-place
    updates of a data frame. *)

Definition panel1 : DataFrame :=
  mkDataFrame [VInt 0; VInt 1]
    [("x", [VInt 1; VInt 2]); ("y", [VStr "a"; VStr "b"])].

Definition panel2 : DataFrame :=
  mkDataFrame [VInt 2] [("x", [VInt 7]); ("y", [VStr "c"])].

Definition scales1 : list (string * list pyval) :=
  [("x", [VInt 0; VInt 10])].

Definition store1 : store :=
  <[4%positive := OClass "stat_identity"]>
    (<[3%positive := ODataFrame panel2]>
       (<[2%positive := OScales scales1]>
          (<[1%positive := ODataFrame panel1]> ∅))).

Definition drop_last_column (d : DataFrame) : DataFrame :=
  mkDataFrame (df_index d)
    (take (pred (length (df_columns d))) (df_columns d)).

Definition add_column (name : string) (cells : list pyval) (d : DataFrame)
  : DataFrame :=
  mkDataFrame (df_index d) (df_columns d ++ [(name, cells)]).

Definition call1 : call :=
  mkCall (VRef 4) (VRef 1) (VRef 2) stat_identity.DEFAULT_PARAMS.

Definition call2 : call :=
  mkCall (VRef 4) (VRef 3) (VRef 2) ∅.

(** * Properties of the store model *)

Section store_model.
Context {A : Type}.
Implicit Types (p t : prog A) (h : store) (l : loc).

Lemma run_ret (a : A) h : run (Ret a) h = mkResult (Returned a) h [].
Proof. reflexivity. Qed.

(** The log is sound for writes: a location that the log does not list as
    written holds after the run what it held before. *)
Lemma run_frame p : ∀ h l,
  l ∉ writes (res_log (run p h)) → res_store (run p h) !! l = h !! l.
Proof.
  induction p as [a|e|l0 k IH|l0 o k IH|o k IH]; intros h l Hl; simpl in *.
  - done.
  - done.
  - by apply IH.
  - unfold writes in Hl. simpl in Hl. apply not_elem_of_cons in Hl as [Hne Hl].
    rewrite IH by done. by rewrite lookup_insert_ne.
  - unfold writes in Hl. simpl in Hl. apply not_elem_of_cons in Hl as [Hne Hl].
    rewrite IH by done. by rewrite lookup_insert_ne.
Qed.

(** A program that logs no write leaves the whole store as it was. *)
Lemma run_no_write p h :
  writes (res_log (run p h)) = [] → res_store (run p h) = h.
Proof.
  intros Hw. apply map_eq. intros l. apply run_frame.
  rewrite Hw. apply not_elem_of_nil.
Qed.

(** One step of a thread is one step of [run]. *)
Lemma thread_step_run t h t' h' :
  thread_step t h = Some (t', h') →
  res_outcome (run t h) = res_outcome (run t' h')
  ∧ res_store (run t h) = res_store (run t' h').
Proof.
  destruct t; simpl; intros Hs; simplify_eq; done.
Qed.

(** A thread has no step left exactly when it has produced its outcome. *)
Lemma thread_step_None t h :
  thread_step t h = None ↔ is_Some (thread_outcome t).
Proof.
  destruct t; simpl; split; intros H; try done; try by eexists.
  all: by destruct H.
Qed.

Lemma thread_outcome_run t h o :
  thread_outcome t = Some o → run t h = mkResult o h [].
Proof. destruct t; simpl; intros ?; simplify_eq; done. Qed.

(** A pool in which every thread has finished stays as it is under every
    schedule. *)
Lemma interleave_finished (ts : list (prog A)) h sched :
  Forall (λ t, is_Some (thread_outcome t)) ts →
  interleave sched (ts, h) = (ts, h).
Proof.
  intros Hfin. unfold interleave.
  induction sched as [|i sched IH]; simpl; [done|].
  replace (pool_step (ts, h) i) with (ts, h); [done|].
  unfold pool_step; simpl.
  destruct (ts !! i) as [t|] eqn:Hi; [|done].
  assert (thread_step t h = None) as ->; [|done].
  apply thread_step_None.
  by apply (Forall_lookup_1 _ _ _ _ Hfin Hi).
Qed.
End store_model.

(** Running a sequence: the second program starts in the store the first one
    left, and the logs follow one another; an exception of the first program
    ends the sequence. *)
Lemma run_bind {A B : Type} (p : prog A) (f : A → prog B) : ∀ h,
  run (p ≫= f) h =
    match res_outcome (run p h) with
    | Returned a =>
        let r := run (f a) (res_store (run p h)) in
        mkResult (res_outcome r) (res_store r) (res_log (run p h) ++ res_log r)
    | Raised e => mkResult (Raised e) (res_store (run p h)) (res_log (run p h))
    end.
Proof.
  unfold mbind, prog_bind.
  induction p as [a|e|l k IH|l o k IH|o k IH]; intros h; simpl.
  - by destruct (run (f a) h).
  - done.
  - rewrite IH. by destruct (res_outcome (run (k (h !! l)) h)).
  - rewrite IH. by destruct (res_outcome (run k (<[l:=o]> h))).
  - rewrite IH. by destruct (res_outcome (run (k (fresh_loc h)) _)).
Qed.

(** * The model at work

    The store model tells an alias from a copy and lets threads disturb one
    another; the statements about [compute_panel] below are therefore not
    true of programs in general. *)

(** Updating through a copy leaves the original as it was. *)
Example update_of_copy_keeps_original :
  let r := run (v ← copy_obj (VRef 1); update_df v drop_last_column) store1 in
  res_outcome r = Returned (VRef 5)
  ∧ res_log r = [EvLoad 1; EvAlloc 5; EvLoad 5; EvStore 5]
  ∧ deref_df (res_store r) (VRef 1) = Some panel1
  ∧ deref_df (res_store r) (VRef 5)
    = Some (mkDataFrame [VInt 0; VInt 1] [("x", [VInt 1; VInt 2])]).
Proof. vm_compute. done. Qed.

(** Updating a value that is no data frame raises. *)
Example update_of_scales_raises :
  res_outcome (run (update_df (VRef 2) drop_last_column) store1)
  = Raised (AttributeError "not a data frame").
Proof. reflexivity. Qed.

(** Two updates of one data frame interfere: when both threads read before
    either writes, the first update is lost. *)
Example interleaved_updates_interfere :
  let pool := [update_df (VRef 1) (add_column "a" [VInt 1; VInt 1]);
               update_df (VRef 1) (add_column "b" [VInt 2; VInt 2])] in
  df_names <$> deref_df (interleave [0; 0; 1; 1] (pool, store1)).2 (VRef 1)
    = Some ["x"; "y"; "a"; "b"]
  ∧ df_names <$> deref_df (interleave [0; 1; 0; 1] (pool, store1)).2 (VRef 1)
    = Some ["x"; "y"; "b"].
Proof. vm_compute. done. Qed.

(** * The identity statistic *)

Import stat_identity.

(** The one equation of the method: it returns [data], leaves the store as it
    found it and performs no store operation. *)
Lemma run_compute_panel (cls data scales : pyval) (params : gmap string pyval)
    (h : store) :
  run (compute_panel cls data scales params) h = mkResult (Returned data) h [].
Proof. reflexivity. Qed.

Example compute_panel_panel1 :
  run (invoke call1) store1 = mkResult (Returned (VRef 1)) store1 [].
Proof. reflexivity. Qed.

(** Any value at all goes through, also one that is no data frame. *)
Example compute_panel_none :
  run (compute_panel (VRef 4) VNone VNone ∅) store1
  = mkResult (Returned VNone) store1 [].
Proof. reflexivity. Qed.

(** C1 (identity law).  When [data] refers to a data frame [d], the call
    returns, whatever [scales] and [params] are, a value that refers to a
    data frame equal to [d]: the same number of rows, the same set of
    columns, the same order of columns and the same value in every cell. *)
Theorem compute_panel_identity_law
    (cls data scales : pyval) (params : gmap string pyval) (h : store)
    (d : DataFrame) :
  deref_df h data = Some d →
  let r := run (compute_panel cls data scales params) h in
  ∃ v d',
    res_outcome r = Returned v
    ∧ deref_df (res_store r) v = Some d'
    ∧ df_nrow d' = df_nrow d
    ∧ df_index d' = df_index d
    ∧ list_to_set (df_names d') =@{gset string} list_to_set (df_names d)
    ∧ df_names d' = df_names d
    ∧ (∀ j i, df_cell d' j i = df_cell d j i)
    ∧ d' = d.
Proof.
  intros Hd r. subst r. rewrite run_compute_panel. simpl.
  exists data, d. repeat split; done.
Qed.

Lemma compute_panel_identity_law_witness :
  deref_df store1 (VRef 1) = Some panel1
  ∧ ∃ v d',
      res_outcome (run (compute_panel (VRef 4) (VRef 1) (VRef 2) DEFAULT_PARAMS)
                     store1) = Returned v
      ∧ deref_df
          (res_store (run (compute_panel (VRef 4) (VRef 1) (VRef 2) DEFAULT_PARAMS)
                        store1)) v = Some d'
      ∧ df_nrow d' = df_nrow panel1
      ∧ df_index d' = df_index panel1
      ∧ list_to_set (df_names d') =@{gset string} list_to_set (df_names panel1)
      ∧ df_names d' = df_names panel1
      ∧ (∀ j i, df_cell d' j i = df_cell panel1 j i)
      ∧ d' = panel1.
Proof.
  split; [reflexivity|].
  apply (compute_panel_identity_law
           (VRef 4) (VRef 1) (VRef 2) DEFAULT_PARAMS store1 panel1).
  reflexivity.
Defined.

(** C2 (default configuration).  [DEFAULT_PARAMS] maps [geom] to ["point"]
    and [position] to ["identity"], and has no other key. *)
Theorem DEFAULT_PARAMS_geom_position :
  DEFAULT_PARAMS !! "geom" = Some (VStr "point")
  ∧ DEFAULT_PARAMS !! "position" = Some (VStr "identity")
  ∧ dom DEFAULT_PARAMS = {["geom"; "position"]}
  ∧ DEFAULT_PARAMS = {["geom" := VStr "point"; "position" := VStr "identity"]}.
Proof.
  unfold DEFAULT_PARAMS. split_and!.
  - by rewrite lookup_insert_ne, lookup_insert_eq.
  - by rewrite lookup_insert_eq.
  - rewrite !dom_insert_L, dom_empty_L. set_solver.
  - rewrite <- insert_empty. by apply insert_insert_ne.
Qed.

(** C3 (idempotence).  Feeding the result of [compute_panel] to a second
    call gives what a single call gives: the same value, the same store and
    the same (empty) log. *)
Theorem compute_panel_idempotent
    (cls data scales : pyval) (params : gmap string pyval) (h : store) :
  run (v ← compute_panel cls data scales params;
       compute_panel cls v scales params) h
  = run (compute_panel cls data scales params) h.
Proof.
  rewrite run_bind, !run_compute_panel. simpl. done.
Qed.

(** C4 (indifference to the arguments other than [data]).  Two calls on the
    same [data] give the same result whatever the scales and the keyword
    arguments of each. *)
Theorem compute_panel_depends_on_data_only
    (cls data scales1 scales2 : pyval) (params1 params2 : gmap string pyval)
    (h : store) :
  run (compute_panel cls data scales1 params1) h
  = run (compute_panel cls data scales2 params2) h.
Proof. by rewrite !run_compute_panel. Qed.

(** C5 (no mutation of [data]).  The call writes to no location; the store
    after the call is the store before it, so the object [data] refers to is
    what it was. *)
Theorem compute_panel_leaves_data
    (cls data scales : pyval) (params : gmap string pyval) (h : store) :
  let r := run (compute_panel cls data scales params) h in
  writes (res_log r) = []
  ∧ res_store r = h
  ∧ deref_df (res_store r) data = deref_df h data.
Proof. intros r. subst r. by rewrite run_compute_panel. Qed.

(** C6 (the scales are neither read nor written).  With the scales at
    location [l], the call performs no read and no write of [l], the object
    at [l] is after the call what it was before, and the value returned is the
    same for any other scales argument and any other object at [l]. *)
Theorem compute_panel_ignores_scales
    (cls data : pyval) (l : loc) (params : gmap string pyval) (h : store) :
  let r := run (compute_panel cls data (VRef l) params) h in
  (l ∉ reads (res_log r))
  ∧ (l ∉ writes (res_log r))
  ∧ res_store r !! l = h !! l
  ∧ ∀ (scales' : pyval) (o : pyobj),
      res_outcome (run (compute_panel cls data scales' params) (<[l:=o]> h))
      = res_outcome r.
Proof.
  intros r. subst r. rewrite run_compute_panel. simpl.
  split_and!; [apply not_elem_of_nil | apply not_elem_of_nil | done |].
  intros scales' o. done.
Qed.

(** C7 (no error).  On every input the call returns a value; it raises no
    exception. *)
Theorem compute_panel_never_raises
    (cls data scales : pyval) (params : gmap string pyval) (h : store) :
  (∃ v, res_outcome (run (compute_panel cls data scales params) h) = Returned v)
  ∧ ∀ e, res_outcome (run (compute_panel cls data scales params) h) ≠ Raised e.
Proof. rewrite run_compute_panel. simpl. split; [by eexists | done]. Qed.

(** C8 (termination).  On every input the call is complete at once: it has
    its outcome with no store operation left to perform, and its run ends
    having performed none (no load, no store, no allocation). *)
Theorem compute_panel_terminates_at_once
    (cls data scales : pyval) (params : gmap string pyval) (h : store) :
  thread_step (compute_panel cls data scales params) h = None
  ∧ is_Some (thread_outcome (compute_panel cls data scales params))
  ∧ ∃ v, run (compute_panel cls data scales params) h
         = mkResult (Returned v) h []
         ∧ length (res_log (run (compute_panel cls data scales params) h)) = 0.
Proof.
  split_and!; [done | by eexists |].
  exists data. by rewrite run_compute_panel.
Qed.

(** C9 (concurrent invocations).  Run the invocations for any list of panels
    against one store under any schedule: the store stays as it was, and
    every invocation has the outcome it has when it runs alone on that store,
    which is its own [data]. *)
Theorem compute_panel_concurrent_safe
    (calls : list call) (h : store) (sched : list nat) :
  let c := interleave sched (spawn calls, h) in
  c.2 = h
  ∧ thread_outcome <$> c.1
    = (λ k, Some (res_outcome (run (invoke k) h))) <$> calls
  ∧ thread_outcome <$> c.1 = (λ k, Some (Returned (call_data k))) <$> calls.
Proof.
  intros c. subst c. rewrite interleave_finished.
  - simpl. unfold spawn. rewrite <- !list_fmap_compose. done.
  - unfold spawn. apply Forall_fmap, Forall_true. intros k. by eexists.
Qed.

(** C10 (same object).  The value returned is the argument [data] itself, not
    a copy: an in-place update made through the returned value is seen
    through [data]. *)
Theorem compute_panel_returns_same_object
    (cls data scales : pyval) (params : gmap string pyval) (h : store)
    (d : DataFrame) (f : DataFrame → DataFrame) :
  deref_df h data = Some d →
  res_outcome (run (compute_panel cls data scales params) h) = Returned data
  ∧ deref_df
      (res_store (run (v ← compute_panel cls data scales params; update_df v f)
                    h))
      data
    = Some (f d).
Proof.
  intros Hd. split; [done|].
  rewrite run_bind, run_compute_panel. simpl.
  destruct data as [| | | | |l]; try done. simpl in *.
  destruct (h !! l) as [[d0| | |]|] eqn:Hl; try done. simplify_eq.
  simpl. by rewrite lookup_insert_eq.
Qed.

Lemma compute_panel_returns_same_object_witness :
  deref_df store1 (VRef 1) = Some panel1
  ∧ res_outcome (run (compute_panel (VRef 4) (VRef 1) (VRef 2) ∅) store1)
    = Returned (VRef 1)
  ∧ deref_df
      (res_store (run (v ← compute_panel (VRef 4) (VRef 1) (VRef 2) ∅;
                       update_df v drop_last_column) store1))
      (VRef 1)
    = Some (drop_last_column panel1).
Proof.
  split; [reflexivity|].
  apply (compute_panel_returns_same_object
           (VRef 4) (VRef 1) (VRef 2) ∅ store1 panel1 drop_last_column).
  reflexivity.
Defined.

(** * The statistic as a stage among other programs

    [compute_panel] performs no store operation.  The statements below say
    what that means for the programs around it: the stages before and after
    it in a sequence, and the threads that share the store with it. *)

Open Scope list_scope.

(** Threads that have finished take no part in what the rest of a pool does:
    under every schedule the other threads and the store move as they do
    without them, and the finished threads stay as they are. *)
Lemma pool_step_app_finished {A : Type} (ts fin : list (prog A)) (h : store)
    (i : nat) :
  Forall (λ t, is_Some (thread_outcome t)) fin →
  pool_step (ts ++ fin, h) i
  = ((pool_step (ts, h) i).1 ++ fin, (pool_step (ts, h) i).2).
Proof.
  intros Hfin. unfold pool_step. simpl.
  destruct (decide (i < length ts)) as [Hlt|Hge].
  - rewrite lookup_app_l by done.
    destruct (ts !! i) as [t|] eqn:Hi; [|done].
    destruct (thread_step t h) as [[t' h']|]; simpl; [|done].
    by rewrite insert_app_l.
  - rewrite lookup_app_r by lia.
    rewrite (lookup_ge_None_2 ts i) by lia. simpl.
    destruct (fin !! (i - length ts)) as [t|] eqn:Hi; [|done].
    assert (thread_step t h = None) as ->; [|done].
    apply thread_step_None.
    by apply (Forall_lookup_1 _ _ _ _ Hfin Hi).
Qed.

Lemma interleave_app_finished {A : Type} (fin : list (prog A))
    (sched : list nat) :
  Forall (λ t, is_Some (thread_outcome t)) fin →
  ∀ (ts : list (prog A)) (h : store),
    interleave sched (ts ++ fin, h)
    = ((interleave sched (ts, h)).1 ++ fin, (interleave sched (ts, h)).2).
Proof.
  intros Hfin. unfold interleave.
  induction sched as [|i sched IH]; intros ts h; simpl; [done|].
  rewrite pool_step_app_finished by done.
  destruct (pool_step (ts, h) i) as [ts' h']. simpl. apply IH.
Qed.

(** The statistic after any program runs as that program alone does. *)
Lemma run_then_compute_panel (cls scales : pyval) (params : gmap string pyval)
    (p : prog pyval) (h : store) :
  run (v ← p; compute_panel cls v scales params) h = run p h.
Proof.
  rewrite run_bind.
  destruct (run p h) as [[a|e] s log]; simpl; [|done].
  by rewrite app_nil_r.
Qed.

(** X1 (a neutral stage).  Put between any program [p] that produces the
    data and any program [f] that consumes the result, the statistic changes
    nothing: the sequence has the outcome, the final store and the log of
    store operations of [p] followed by [f]; an exception of [p] passes
    through. *)
Theorem compute_panel_neutral_stage {B : Type}
    (cls scales : pyval) (params : gmap string pyval)
    (p : prog pyval) (f : pyval → prog B) (h : store) :
  run (v ← p; w ← compute_panel cls v scales params; f w) h
  = run (v ← p; f v) h.
Proof.
  rewrite !run_bind.
  destruct (res_outcome (run p h)) as [a|e]; done.
Qed.

(** X2 (any number of applications).  Applying the statistic [n] times in a
    row to what a program [p] produces runs as [p] alone does, for every
    [n]. *)
Theorem compute_panel_iterated
    (cls scales : pyval) (params : gmap string pyval)
    (n : nat) (p : prog pyval) (h : store) :
  run (Nat.iter n (λ q, v ← q; compute_panel cls v scales params) p) h
  = run p h.
Proof.
  induction n as [|n IH]; simpl; [done|].
  by rewrite run_then_compute_panel.
Qed.

(** X3 (no interference with other threads).  Invocations of the statistic
    that share the store with any other programs: under every schedule the
    other programs and the store move exactly as they do without the
    invocations, and every invocation stays complete with its own [data] as
    its value, whatever the others write. *)
Theorem compute_panel_beside_other_threads
    (others : list (prog pyval)) (calls : list call) (h : store)
    (sched : list nat) :
  interleave sched (others ++ spawn calls, h)
  = ((interleave sched (others, h)).1 ++ spawn calls,
     (interleave sched (others, h)).2)
  ∧ spawn calls = (λ k, Ret (call_data k)) <$> calls.
Proof.
  split; [|done].
  apply interleave_app_finished.
  unfold spawn. apply Forall_fmap, Forall_true. intros k. by eexists.
Qed.

(** The invocation for panel 1 beside two threads that update that panel's
    data frame: the updates go as they go without it (here the first is
    lost), and the invocation still holds the reference to the frame. *)
Example compute_panel_beside_updates :
  let others := [update_df (VRef 1) (add_column "a" [VInt 1; VInt 1]);
                 update_df (VRef 1) (add_column "b" [VInt 2; VInt 2])] in
  let c := interleave [0; 2; 1; 0; 2; 1] (others ++ spawn [call1], store1) in
  thread_outcome <$> c.1
  = [Some (Returned (VRef 1)); Some (Returned (VRef 1));
     Some (Returned (VRef 1))]
  ∧ df_names <$> deref_df c.2 (VRef 1) = Some ["x"; "y"; "b"].
Proof. vm_compute. done. Qed.
